(** * cfw-gha-deploy: the worker of [src/index.ts] and its deployment descriptor

    The repository holds one program, [src/index.ts]:

      import { Hono } from 'hono'
      const app = new Hono()
      app.get('/', (c) => { return c.text('Hello Hono! x gha deploy') })
      export default app

    and a README that documents the deployment descriptor ([wrangler.json],
    [wrangler.toml]) and the layout of the project.

    The program is three statements over the [hono] package, so the development
    has four parts:
    - [JS]: the run-time the statements execute in: a store of objects
      addressed by reference, a console, and completions that are either
      normal or a throw;
    - [Hono]: the part of the [hono] package that the program calls
      ([new Hono()], [app.get], [c.text], and [app.fetch], through which the
      hosting platform hands requests to the default export), with the state
      the application object keeps: its routes and the matcher of its router;
    - [Index]: the module [src/index.ts] itself, statement by statement;
    - [Descriptor]: the two documented forms of the descriptor and the
      project tree of the README. *)

From Stdlib Require Import ZArith Ascii.
From stdpp Require Import base option list gmap strings.

Local Open Scope string_scope.

(** ** The run-time: references, store, completions *)

Module JS.

(** An object reference. *)
Definition loc := positive.

(** How a call completes: with a value, or by throwing. *)
Inductive Completion (A : Type) : Type :=
| Normal (a : A)
| Throw (err : string).
Arguments Normal {A} a.
Arguments Throw {A} err.

(** Everything a statement can touch: the objects on the heap and what has
    been written to the console.  [Obj] is the type of heap objects. *)
Record Store (Obj : Type) : Type := mkStore {
  heap : gmap loc Obj;
  console : list string
}.
Arguments mkStore {Obj} heap console.
Arguments heap {Obj} s.
Arguments console {Obj} s.

(** A computation reads and writes the store and completes. *)
Definition M (Obj A : Type) : Type := Store Obj -> Completion A * Store Obj.

Definition ret {Obj A} (a : A) : M Obj A := fun s => (Normal a, s).

Definition bind {Obj A B} (m : M Obj A) (k : A -> M Obj B) : M Obj B :=
  fun s =>
    match m s with
    | (Normal a, s') => k a s'
    | (Throw e, s') => (Throw e, s')
    end.

(** [try { m } catch (e) { h e }]: what [m] wrote before it threw stays. *)
Definition catch {Obj A} (m : M Obj A) (h : string -> M Obj A) : M Obj A :=
  fun s =>
    match m s with
    | (Normal a, s') => (Normal a, s')
    | (Throw e, s') => h e s'
    end.

(** [new C(...)]: the object is put at a reference the heap does not use. *)
Definition alloc {Obj} (o : Obj) : M Obj loc :=
  fun s =>
    let l := fresh (dom (heap s)) in
    (Normal l, mkStore (<[l := o]> (heap s)) (console s)).

(** Reading through a reference; a dangling one is a TypeError. *)
Definition deref {Obj} (l : loc) : M Obj Obj :=
  fun s =>
    match heap s !! l with
    | Some o => (Normal o, s)
    | None => (Throw "TypeError", s)
    end.

(** Updating the object behind a reference in place. *)
Definition assign {Obj} (l : loc) (o : Obj) : M Obj unit :=
  fun s =>
    match heap s !! l with
    | Some _ => (Normal tt, mkStore (<[l := o]> (heap s)) (console s))
    | None => (Throw "TypeError", s)
    end.

(** [throw new Error(msg)] *)
Definition throw {Obj A} (msg : string) : M Obj A :=
  fun s => (Throw msg, s).

(** [console.error(msg)] *)
Definition console_error {Obj} (msg : string) : M Obj unit :=
  fun s => (Normal tt, mkStore (heap s) (console s ++ [msg])).

End JS.

Import JS.

Notation "x <- m ;; k" := (bind m (fun x => k))
  (at level 100, m at next level, right associativity).

(** ** The slice of the [hono] package used by the program

    [hono] is a dependency of the repository, not part of it.  What follows
    models the calls the program makes ([new Hono()], [app.get], [c.text])
    and the entry the platform calls on the default export ([app.fetch]),
    after the package's [hono-base.ts], [context.ts], [utils/url.ts] and
    [router/smart-router]: routes are kept in [app.routes] in the order of
    registration; the router builds its matcher at the first match, and from
    then on refuses new routes; [fetch] dispatches on the method and the path
    of the request; a handler runs inside try/catch; and the defaults for a
    missing route and for a thrown error are the package's own
    [notFoundHandler] and [errorHandler]. *)

Module Hono.

(** A request as the platform delivers it.  [method] is [request.method]
    (upper case for the standard methods); [path] is what hono's [getPath]
    takes from the URL, which stops at the [?]; the query string, the headers
    and the body are the rest of the request. *)
Record Request : Type := mkRequest {
  method : string;
  path : string;
  query : string;
  req_headers : list (string * string);
  req_body : option string
}.

(** A response: status, headers, and a body that may be null. *)
Record Response : Type := mkResponse {
  status : Z;
  headers : list (string * string);
  body : option string
}.

(** The context object [c] handed to a handler; it carries the request.
    [dispatch] makes a new one for every request, with no status and no
    header set on it, and the program sets none. *)
Record Context : Type := mkContext {
  req : Request
}.

(** [c.text(data, status?)].  Without a status, on a context on which
    nothing was set, hono returns [new Response(data)], whose content type is
    the one the run-time gives to a string body; with a status it builds the
    response itself, with its own spelling of the content type. *)
Definition text (c : Context) (data : string) (st : option Z) : Response :=
  match st with
  | None =>
      {| status := 200%Z;
         headers := [("content-type", "text/plain;charset=UTF-8")];
         body := Some data |}
  | Some code =>
      {| status := code;
         headers := [("content-type", "text/plain; charset=UTF-8")];
         body := Some data |}
  end.

(** [new Response(null, r)]: the status and headers of [r], no body. *)
Definition Response_null (r : Response) : Response :=
  {| status := status r; headers := headers r; body := None |}.

(** The value of a header of a response. *)
Fixpoint headers_get (name : string) (hs : list (string * string)) : option string :=
  match hs with
  | [] => None
  | (k, v) :: hs' => if decide (k = name) then Some v else headers_get name hs'
  end.

Definition header (name : string) (r : Response) : option string :=
  headers_get name (headers r).

(** [s[0] === '/'] *)
Definition first_is_slash (s : string) : bool :=
  match s with
  | String c _ => bool_decide (c = "/"%char)
  | EmptyString => false
  end.

(** [s.at(-1) === '/'] *)
Fixpoint last_is_slash (s : string) : bool :=
  match s with
  | EmptyString => false
  | String c EmptyString => bool_decide (c = "/"%char)
  | String _ s' => last_is_slash s'
  end.

(** [s.slice(1)] *)
Definition slice1 (s : string) : string :=
  match s with
  | String _ s' => s'
  | EmptyString => EmptyString
  end.

(** [mergePath(base, sub)]: the path a route is registered under. *)
Definition mergePath (base sub : string) : string :=
  (if first_is_slash base then "" else "/") +:+ base +:+
  (if decide (sub = "/") then ""
   else (if last_is_slash base then "" else "/") +:+
        (if first_is_slash sub then slice1 sub else sub)).

(** The base path of an application made by [new Hono()]. *)
Definition basePath : string := "/".

(** The message of the error the router throws at a late registration. *)
Definition MESSAGE_MATCHER_IS_ALREADY_BUILT : string :=
  "Can not add a route since the matcher is already built.".

Section Client.

(** The function objects of the client program, and how they run.  Routes
    hold a function object, so that a handler may read and write the very
    store the application object lives in. *)
Variable Fn : Type.

(** An entry of [app.routes]. *)
Record RouterRoute : Type := mkRoute {
  r_method : string;
  r_path : string;
  handler : Fn
}.

(** The application object: its routes, the path last given to a
    registration, and whether its router has built its matcher. *)
Record HonoObj : Type := mkHono {
  routes : list RouterRoute;
  cur_path : string;
  matcher_built : bool
}.

Variable call : Fn -> Context -> M HonoObj Response.

(** [new Hono()]: an application with no route, whose matcher is not built. *)
Definition new_Hono : M HonoObj loc := alloc (mkHono [] "/" false).

(** [app.get(path, handler)]: notes the path, has the router add the route
    for method GET under the merged path, which the router refuses once its
    matcher is built, pushes the route on [app.routes] and returns [app]. *)
Definition get (app : loc) (p : string) (h : Fn) : M HonoObj loc :=
  o <- deref app ;;
  _ <- assign app (mkHono (routes o) p (matcher_built o)) ;;
  if matcher_built o
  then throw MESSAGE_MATCHER_IS_ALREADY_BUILT
  else
    _ <- assign app (mkHono (routes o ++ [mkRoute "GET" (mergePath basePath p) h])
                            p false) ;;
    ret app.

(** Whether a route answers to a method and a path.  The pattern is
    compared literally: it is how the router treats a pattern with neither
    a parameter nor a wildcard, the only kind the program registers. *)
Definition route_matches (m p : string) (r : RouterRoute) : Prop :=
  (r_method r = m \/ r_method r = "ALL") /\ r_path r = p.

#[local] Instance route_matches_dec m p r : Decision (route_matches m p r) :=
  and_dec (or_dec (decide (r_method r = m)) (decide (r_method r = "ALL")))
          (decide (r_path r = p)).

(** The routes of an application that answer to a method and a path, in the
    order of registration. *)
Definition router_match (app : HonoObj) (m p : string) : list RouterRoute :=
  filter (route_matches m p) (routes app).

(** The application object once its router has built its matcher. *)
Definition build_matcher (o : HonoObj) : HonoObj :=
  mkHono (routes o) (cur_path o) true.

(** [this.router.match(method, path)]: the first call builds the matcher
    inside the application object; every call returns the routes that
    answer. *)
Definition smart_match (app : loc) (m p : string) : M HonoObj (list RouterRoute) :=
  o <- deref app ;;
  _ <- assign app (build_matcher o) ;;
  ret (router_match o m p).

(** The default not-found handler: [c.text('404 Not Found', 404)]. *)
Definition notFoundHandler (c : Context) : M HonoObj Response :=
  ret (text c "404 Not Found" (Some 404%Z)).

(** The default error handler: logs the error and answers 500. *)
Definition errorHandler (err : string) (c : Context) : M HonoObj Response :=
  _ <- console_error err ;;
  ret (text c "Internal Server Error" (Some 500%Z)).

(** Dispatch of a request under a given method: the router is asked, then
    the first route that answers runs, inside try/catch; without one, the
    not-found handler. *)
Definition dispatch_as (app : loc) (request : Request) (m : string)
  : M HonoObj Response :=
  rs <- smart_match app m (path request) ;;
  let c := mkContext request in
  match rs with
  | [] => notFoundHandler c
  | r :: _ => catch (call (handler r) c) (fun err => errorHandler err c)
  end.

(** [dispatch]: a HEAD request is dispatched as GET and its response is
    returned without the body, before any route is looked up:
    [if (method === 'HEAD') return new Response(null, await
    this.dispatch(request, executionCtx, env, 'GET'))]. *)
Definition dispatch (app : loc) (request : Request) (m : string)
  : M HonoObj Response :=
  if decide (m = "HEAD")
  then r <- dispatch_as app request "GET" ;; ret (Response_null r)
  else dispatch_as app request m.

(** [app.fetch(request)], the entry the platform calls. *)
Definition fetch (app : loc) (request : Request) : M HonoObj Response :=
  dispatch app request (method request).

(** The store after a match on the application [o] at [l]. *)
Definition store_built (l : loc) (o : HonoObj) (s : Store HonoObj) : Store HonoObj :=
  mkStore (<[l := build_matcher o]> (heap s)) (console s).

End Client.

Arguments mkRoute {Fn} r_method r_path handler.
Arguments r_method {Fn} r.
Arguments r_path {Fn} r.
Arguments handler {Fn} r.
Arguments mkHono {Fn} routes cur_path matcher_built.
Arguments routes {Fn} h.
Arguments cur_path {Fn} h.
Arguments matcher_built {Fn} h.
Arguments new_Hono {Fn}.
Arguments get {Fn} app p h.
Arguments route_matches {Fn} m p r.
Arguments router_match {Fn} app m p.
Arguments build_matcher {Fn} o.
Arguments smart_match {Fn} app m p.
Arguments notFoundHandler {Fn} c.
Arguments errorHandler {Fn} err c.
Arguments dispatch_as {Fn} call app request m.
Arguments dispatch {Fn} call app request m.
Arguments fetch {Fn} call app request.
Arguments store_built {Fn} l o s.

End Hono.

Import Hono.

(** ** The module [src/index.ts] *)

Module Index.

(** The function objects the module creates: the arrow function of line 5. *)
Inductive Fn : Type :=
| root_handler.

(** The fixed body. *)
Definition greeting : string := "Hello Hono! x gha deploy".

(** The bodies of the function objects:
    [(c) => { return c.text('Hello Hono! x gha deploy') }]. *)
Definition call (f : Fn) (c : Context) : M (HonoObj Fn) Response :=
  match f with
  | root_handler => ret (text c greeting None)
  end.

(** The module body; its value is the default export. *)
Definition module_body : M (HonoObj Fn) loc :=
  app <- new_Hono ;;
  _ <- get app "/" root_handler ;;
  ret app.

(** The store a fresh isolate starts from. *)
Definition empty_store : Store (HonoObj Fn) := mkStore ∅ [].

(** Loading the module. *)
Definition load : Completion loc * Store (HonoObj Fn) := module_body empty_store.

(** The application object once the module is loaded. *)
Definition app_obj : HonoObj Fn :=
  mkHono [mkRoute "GET" "/" root_handler] "/" false.

(** The reference the module exports. *)
Definition app : loc := 1%positive.

(** The success response. *)
Definition hello : Response :=
  {| status := 200%Z;
     headers := [("content-type", "text/plain;charset=UTF-8")];
     body := Some greeting |}.

(** What the platform does with a request: calls [fetch] on the export. *)
Definition handle (request : Request) : M (HonoObj Fn) Response :=
  fetch call app request.

(** The platform serving a sequence of requests, one call each, on the same
    isolate: the store left by a call is the one the next call starts from. *)
Fixpoint serve (requests : list Request) : M (HonoObj Fn) (list Response) :=
  match requests with
  | [] => ret []
  | request :: rest =>
      r <- handle request ;;
      rs <- serve rest ;;
      ret (r :: rs)
  end.

(** The store once the module is loaded in a fresh isolate. *)
Definition loaded : Store (HonoObj Fn) := snd load.

(** The store once a request has been served after that: the matcher of the
    application is built. *)
Definition served : Store (HonoObj Fn) :=
  mkStore {[ app := build_matcher app_obj ]} [].

(** The framework's not-found response. *)
Definition not_found : Response :=
  {| status := 404%Z;
     headers := [("content-type", "text/plain; charset=UTF-8")];
     body := Some "404 Not Found" |}.

(** The answers of the worker in closed form, by method and path; shown
    below to be what [handle] computes ([handle_respond]). *)
Definition respond (m p : string) : Response :=
  if decide (m = "HEAD") then
    if decide (p = "/") then Response_null hello else Response_null not_found
  else
    if decide (m = "GET" /\ p = "/") then hello else not_found.

(** A response whose content type is text: the media type of its
    content-type header is text/plain. *)
Definition is_text (r : Response) : Prop :=
  exists v, header "content-type" r = Some v /\ String.prefix "text/plain" v = true.

(** The request with the method replaced. *)
Definition with_method (m : string) (request : Request) : Request :=
  mkRequest m (path request) (query request) (req_headers request) (req_body request).

End Index.

Import Index.

(** ** The deployment descriptor and the project tree of the README *)

Module Descriptor.

(** The record a deploy tool reads. *)
Record Descriptor : Type := mkDescriptor {
  name : string;
  main : string;
  compatibility_date : string
}.

(** JSON documents, as far as a descriptor goes: an object whose members
    are scalars. *)
Inductive JsonValue : Type :=
| JString (s : string)
| JNumber (n : Z)
| JBool (b : bool)
| JNull.

Definition Json : Type := list (string * JsonValue).

(** TOML documents, as far as a descriptor goes: [key = "value"] lines. *)
Inductive TomlValue : Type :=
| TString (s : string).

Definition Toml : Type := list (string * TomlValue).

(** README, [wrangler.json]. *)
Definition wrangler_json : Json :=
  [("name", JString "my-worker");
   ("main", JString "src/index.ts");
   ("compatibility_date", JString "2025-12-10")].

(** README, [wrangler.toml]. *)
Definition wrangler_toml : Toml :=
  [("name", TString "my-worker");
   ("main", TString "src/index.ts");
   ("compatibility_date", TString "2025-12-10")].

(** The string a JSON document binds a field to. *)
Fixpoint json_field (key : string) (j : Json) : option string :=
  match j with
  | [] => None
  | (k, v) :: j' =>
      if decide (k = key)
      then match v with JString s => Some s | _ => None end
      else json_field key j'
  end.

(** The string a TOML document binds a key to. *)
Fixpoint toml_field (key : string) (t : Toml) : option string :=
  match t with
  | [] => None
  | (k, TString s) :: t' => if decide (k = key) then Some s else toml_field key t'
  end.

(** Reading a descriptor through a field reader. *)
Definition read_descriptor (field : string -> option string) : option Descriptor :=
  match field "name", field "main", field "compatibility_date" with
  | Some n, Some m, Some d => Some (mkDescriptor n m d)
  | _, _, _ => None
  end.

Definition descriptor_of_json (j : Json) : option Descriptor :=
  read_descriptor (fun k => json_field k j).

Definition descriptor_of_toml (t : Toml) : option Descriptor :=
  read_descriptor (fun k => toml_field k t).

(** The fields of a descriptor. *)
Definition fields : list string := ["name"; "main"; "compatibility_date"].

(** What a file of the project is: a module with its body, or anything else. *)
Inductive Content : Type :=
| EsModule (body : M (HonoObj Fn) loc)
| Other.

(** The project: its files by path, a path being the list of its segments.
    README, Project Structure; [src/index.ts] is the module above. *)
Definition project : list (list string * Content) :=
  [(["src"; "index.ts"], EsModule module_body);
   (["wrangler.json"], Other);
   (["package.json"], Other);
   (["pnpm-lock.yaml"], Other);
   ([".github"; "workflows"; "deploy.yml"], Other)].

(** Where the descriptor is. *)
Definition descriptor_path : list string := ["wrangler.json"].

(** The directory of a file. *)
Definition dirname (p : list string) : list string := removelast p.

(** The segments of a relative path: the text between the slashes. *)
Fixpoint segments_from (acc : string) (p : string) : list string :=
  match p with
  | EmptyString => [acc]
  | String c p' =>
      if decide (c = "/"%char)
      then acc :: segments_from "" p'
      else segments_from (acc +:+ String c "") p'
  end.

Definition segments (p : string) : list string := segments_from "" p.

(** A path written out, with slashes. *)
Fixpoint join (segs : list string) : string :=
  match segs with
  | [] => ""
  | [seg] => seg
  | seg :: segs' => seg +:+ "/" +:+ join segs'
  end.

(** The file of the project at a path. *)
Fixpoint lookup_file (files : list (list string * Content)) (p : list string)
  : option Content :=
  match files with
  | [] => None
  | (q, c) :: files' => if decide (q = p) then Some c else lookup_file files' p
  end.

(** The file a relative path names, seen from a directory. *)
Definition resolve (dir : list string) (rel : string) : option Content :=
  lookup_file project (dir ++ segments rel).

(** The path of a file as seen from a directory above it. *)
Fixpoint relative_to (dir p : list string) : option (list string) :=
  match dir, p with
  | [], _ => Some p
  | d :: dir', seg :: p' => if decide (d = seg) then relative_to dir' p' else None
  | _ :: _, [] => None
  end.

(** The modules of the project, by path. *)
Definition modules : list (list string) :=
  omap (fun f => match snd f with EsModule _ => Some (fst f) | Other => None end)
       project.

End Descriptor.


Import Descriptor.

(** ** Loading the module *)

(** Loading completes normally, exports the reference [app], and leaves a heap
    that holds the application object with its one route and nothing else. *)
Lemma load_eq : load = (Normal app, mkStore {[ app := app_obj ]} []).
Proof. vm_compute. reflexivity. Qed.

Lemma loaded_eq : loaded = mkStore {[ app := app_obj ]} [].
Proof. unfold loaded. rewrite load_eq. reflexivity. Qed.

Lemma loaded_app : heap loaded !! app = Some app_obj.
Proof. rewrite loaded_eq. simpl. apply lookup_singleton_eq. Qed.

Lemma served_app : heap served !! app = Some (build_matcher app_obj).
Proof. unfold served. simpl. apply lookup_singleton_eq. Qed.

Lemma mergePath_root : mergePath basePath "/" = "/".
Proof. reflexivity. Qed.

(** ** Routing *)

(** The router finds the route for GET / and for nothing else. *)
Lemma router_match_routes (o : HonoObj Fn) (m p : string) :
  routes o = routes app_obj ->
  router_match o m p =
  if decide (m = "GET" /\ p = "/") then [mkRoute "GET" "/" root_handler] else [].
Proof.
  intros Hr. unfold router_match. rewrite Hr. simpl.
  rewrite filter_cons, filter_nil.
  destruct (decide (m = "GET" /\ p = "/")) as [[-> ->] | Hne].
  - rewrite decide_True; [reflexivity | ].
    unfold route_matches. simpl. auto.
  - rewrite decide_False; [reflexivity | ].
    unfold route_matches. simpl. intros [[Hm | Hm] Hp]; [ | discriminate Hm].
    apply Hne. split; congruence.
Qed.

(** A match gives the routes that answer and leaves the matcher built. *)
Lemma smart_match_eq (F : Type) (l : loc) (o : HonoObj F) (m p : string)
  (s : Store (HonoObj F)) :
  heap s !! l = Some o ->
  smart_match l m p s = (Normal (router_match o m p), store_built l o s).
Proof.
  intros Hl. unfold smart_match, bind, deref, assign, ret.
  rewrite Hl. simpl. rewrite ?Hl. reflexivity.
Qed.

(** Once the matcher is built, a match changes nothing. *)
Lemma store_built_id (F : Type) (l : loc) (o : HonoObj F) (s : Store (HonoObj F)) :
  heap s !! l = Some o ->
  matcher_built o = true ->
  store_built l o s = s.
Proof.
  intros Hl Hb. unfold store_built, build_matcher.
  destruct o as [rs cp b]. simpl in *. subst b.
  rewrite insert_id by exact Hl. destruct s; reflexivity.
Qed.

Lemma store_built_loaded : store_built app app_obj loaded = served.
Proof. unfold loaded. vm_compute. reflexivity. Qed.

Lemma store_built_served : store_built app (build_matcher app_obj) served = served.
Proof. apply store_built_id; [apply served_app | reflexivity]. Qed.

(** Dispatch under a given method. *)
Lemma dispatch_as_eq (l : loc) (o : HonoObj Fn) (request : Request) (m : string)
  (s : Store (HonoObj Fn)) :
  heap s !! l = Some o ->
  routes o = routes app_obj ->
  dispatch_as call l request m s =
  (Normal (if decide (m = "GET" /\ path request = "/") then hello else not_found),
   store_built l o s).
Proof.
  intros Hl Hr. unfold dispatch_as, bind.
  rewrite (smart_match_eq Fn l o m (path request) s Hl).
  rewrite (router_match_routes o m (path request) Hr).
  destruct (decide (m = "GET" /\ path request = "/")); reflexivity.
Qed.

(** [fetch] on a reference that holds the application computes [respond]
    and leaves the matcher built. *)
Lemma fetch_respond (l : loc) (o : HonoObj Fn) (request : Request)
  (s : Store (HonoObj Fn)) :
  heap s !! l = Some o ->
  routes o = routes app_obj ->
  fetch call l request s =
  (Normal (respond (method request) (path request)), store_built l o s).
Proof.
  intros Hl Hr. unfold fetch, dispatch, respond.
  destruct (decide (method request = "HEAD")) as [Hhead | Hhead].
  - unfold bind. rewrite (dispatch_as_eq l o request "GET" s Hl Hr). unfold ret.
    destruct (decide (path request = "/")) as [Hp | Hp].
    + rewrite decide_True by auto. reflexivity.
    + rewrite decide_False by (intros [_ ?]; contradiction). reflexivity.
  - apply (dispatch_as_eq l o request (method request) s Hl Hr).
Qed.

Lemma handle_respond (o : HonoObj Fn) (request : Request) (s : Store (HonoObj Fn)) :
  heap s !! app = Some o ->
  routes o = routes app_obj ->
  handle request s =
  (Normal (respond (method request) (path request)), store_built app o s).
Proof. apply fetch_respond. Qed.

Lemma handle_loaded (request : Request) :
  handle request loaded = (Normal (respond (method request) (path request)), served).
Proof.
  rewrite (handle_respond app_obj request loaded loaded_app eq_refl).
  rewrite store_built_loaded. reflexivity.
Qed.

Lemma handle_served (request : Request) :
  handle request served = (Normal (respond (method request) (path request)), served).
Proof.
  rewrite (handle_respond (build_matcher app_obj) request served served_app eq_refl).
  rewrite store_built_served. reflexivity.
Qed.

(** Serving a sequence of requests: the responses are those of [respond], in
    order; the matcher is built by the first and the store stays as it is
    from then on. *)
Lemma serve_served (requests : list Request) :
  serve requests served =
  (Normal (map (fun r => respond (method r) (path r)) requests), served).
Proof.
  induction requests as [ | request rest IH]; simpl; [reflexivity | ].
  unfold bind at 1. rewrite handle_served.
  unfold bind. rewrite IH. reflexivity.
Qed.

Lemma serve_loaded (requests : list Request) :
  serve requests loaded =
  (Normal (map (fun r => respond (method r) (path r)) requests),
   match requests with [] => loaded | _ :: _ => served end).
Proof.
  destruct requests as [ | request rest]; simpl; [reflexivity | ].
  unfold bind at 1. rewrite handle_loaded.
  unfold bind. rewrite serve_served. reflexivity.
Qed.

(** The responses in closed form have a text content type. *)
Lemma respond_is_text (m p : string) : is_text (respond m p).
Proof.
  unfold respond.
  destruct (decide (m = "HEAD"));
    [destruct (decide (p = "/")) | destruct (decide (m = "GET" /\ p = "/"))];
    eexists; (split; [reflexivity | reflexivity]).
Qed.

(** The cases of the closed form. *)
Lemma respond_head_root (m p : string) :
  m = "HEAD" -> p = "/" -> respond m p = Response_null hello.
Proof. intros -> ->. reflexivity. Qed.

Lemma respond_head_other (m p : string) :
  m = "HEAD" -> p <> "/" -> respond m p = Response_null not_found.
Proof.
  intros -> Hp. unfold respond. rewrite decide_True by reflexivity.
  rewrite decide_False by exact Hp. reflexivity.
Qed.

Lemma respond_not_found (m p : string) :
  m <> "HEAD" -> ~ (m = "GET" /\ p = "/") -> respond m p = not_found.
Proof.
  intros Hm Hn. unfold respond. rewrite decide_False by exact Hm.
  rewrite decide_False by exact Hn. reflexivity.
Qed.

Lemma respond_get_root (m p : string) :
  m = "GET" -> p = "/" -> respond m p = hello.
Proof. intros -> ->. reflexivity. Qed.

(** ** Concrete scenarios *)

Example get_root :
  handle (mkRequest "GET" "/" "" [] None) loaded = (Normal hello, served).
Proof. apply handle_loaded. Qed.

Example post_root :
  handle (mkRequest "POST" "/" "" [] (Some "data")) loaded = (Normal not_found, served).
Proof. apply handle_loaded. Qed.

Example get_other_path :
  handle (mkRequest "GET" "/index.html" "" [] None) served = (Normal not_found, served).
Proof. apply handle_served. Qed.

Example head_root :
  handle (mkRequest "HEAD" "/" "" [] None) loaded =
  (Normal (mkResponse 200%Z [("content-type", "text/plain;charset=UTF-8")] None), served).
Proof. apply handle_loaded. Qed.

(** Before the module is loaded there is no application to call. *)
Example fetch_before_load :
  handle (mkRequest "GET" "/" "" [] None) empty_store = (Throw "TypeError", empty_store).
Proof. vm_compute. reflexivity. Qed.

(** Once a request has been served, the router refuses a new route. *)
Example get_after_fetch :
  fst (get app "/late" root_handler served) = Throw MESSAGE_MATCHER_IS_ALREADY_BUILT.
Proof. vm_compute. reflexivity. Qed.

(** The error branch of dispatch is there for handlers that throw: such a
    handler gets the 500 response and a line on the console. *)
Example throwing_handler_is_caught :
  dispatch (fun (_ : unit) (_ : Context) s => (Throw "boom", s)) 1%positive
           (mkRequest "GET" "/" "" [] None) "GET"
           (mkStore {[ 1%positive := mkHono [mkRoute "GET" "/" tt] "/" false ]} []) =
  (Normal (mkResponse 500%Z [("content-type", "text/plain; charset=UTF-8")]
                      (Some "Internal Server Error")),
   mkStore {[ 1%positive := mkHono [mkRoute "GET" "/" tt] "/" true ]} ["boom"]).
Proof. vm_compute. reflexivity. Qed.

(** The handler of the route reads nothing of its context. *)
Lemma call_ignores_context (f : Fn) (c1 c2 : Context) : call f c1 = call f c2.
Proof. destruct f. reflexivity. Qed.

(** Dispatch reads the request through its path only. *)
Lemma dispatch_as_same_path (l : loc) (r1 r2 : Request) (m : string)
  (s : Store (HonoObj Fn)) :
  path r1 = path r2 -> dispatch_as call l r1 m s = dispatch_as call l r2 m s.
Proof.
  intros Hp. unfold dispatch_as, bind. rewrite Hp.
  destruct (smart_match l m (path r2) s) as [[rs | err] s']; [ | reflexivity].
  destruct rs as [ | r rest]; [reflexivity | ].
  rewrite (call_ignores_context (handler r) (mkContext r1) (mkContext r2)).
  reflexivity.
Qed.

Lemma dispatch_same_path (l : loc) (r1 r2 : Request) (m : string)
  (s : Store (HonoObj Fn)) :
  path r1 = path r2 -> dispatch call l r1 m s = dispatch call l r2 m s.
Proof.
  intros Hp. unfold dispatch.
  destruct (decide (m = "HEAD")).
  - unfold bind. rewrite (dispatch_as_same_path l r1 r2 "GET" s Hp). reflexivity.
  - apply dispatch_as_same_path, Hp.
Qed.

(** ** The request handler *)

(** C1: for the request GET /, whatever its query string, headers and body,
    the worker returns a response with status 200, a text content type
    (text/plain) and a body that is exactly "Hello Hono! x gha deploy"; so it
    does on the first request after loading as on every later one. *)
Theorem C1_get_root_hello (q : string) (hs : list (string * string)) (b : option string) :
  exists r,
    handle (mkRequest "GET" "/" q hs b) loaded = (Normal r, served) /\
    handle (mkRequest "GET" "/" q hs b) served = (Normal r, served) /\
    status r = 200%Z /\
    is_text r /\
    body r = Some "Hello Hono! x gha deploy".
Proof.
  exists hello.
  split; [apply (handle_loaded (mkRequest "GET" "/" q hs b)) | ].
  split; [apply (handle_served (mkRequest "GET" "/" q hs b)) | ].
  split; [reflexivity | split; [ | reflexivity]].
  apply (respond_is_text "GET" "/").
Qed.

(** C2, as stated, fails at HEAD /: the pair is not (GET, /), yet the request
    does not fall through to the not-found handler.  The framework dispatches
    it as GET /, the registered handler runs, and the response has status 200,
    a text content type and no body. *)
Lemma C2_head_root_counterexample :
  exists request r,
    request = mkRequest "HEAD" "/" "" [] None /\
    (method request, path request) <> ("GET", "/") /\
    fst (handle request loaded) = Normal r /\
    status r = 200%Z /\
    body r = None /\
    is_text r /\
    fst (handle request loaded) <> fst (notFoundHandler (mkContext request) loaded).
Proof.
  exists (mkRequest "HEAD" "/" "" [] None), (Response_null hello).
  split; [reflexivity | ]. split; [discriminate | ].
  rewrite handle_loaded.
  split; [reflexivity | ]. split; [reflexivity | ]. split; [reflexivity | ].
  split; [apply (respond_is_text "HEAD" "/") | ].
  simpl. discriminate.
Qed.

(** C2, amended: for every (method, path) pair other than (GET, /) the router
    finds no registered route for the pair, and the request does not produce
    the success response (200 with the fixed body).  For every method other
    than HEAD the request falls through to the framework's not-found handler
    (so POST / gets 404); a HEAD request to another path gets the response of
    the not-found handler without its body; HEAD / is answered as GET / is,
    without the body: status 200, a text content type, no body.  This holds
    whether the matcher of the application is built or not. *)
Theorem C2_other_requests (request : Request) (s : Store (HonoObj Fn)) (o : HonoObj Fn) :
  heap s !! app = Some o ->
  routes o = routes app_obj ->
  (method request, path request) <> ("GET", "/") ->
  router_match o (method request) (path request) = [] /\
  exists r,
    fst (handle request s) = Normal r /\
    ~ (status r = 200%Z /\ body r = Some greeting) /\
    (method request <> "HEAD" ->
       fst (handle request s) = fst (notFoundHandler (mkContext request) s) /\
       status r = 404%Z) /\
    (method request = "HEAD" -> path request <> "/" ->
       exists r404,
         fst (notFoundHandler (mkContext request) s) = Normal r404 /\
         r = Response_null r404 /\
         status r = 404%Z /\
         body r = None) /\
    (method request = "HEAD" -> path request = "/" ->
       exists r0,
         fst (handle (with_method "GET" request) s) = Normal r0 /\
         r = Response_null r0 /\
         status r = 200%Z /\
         body r = None /\
         is_text r).
Proof.
  intros Hl Hr Hne.
  assert (Hnot : ~ (method request = "GET" /\ path request = "/")).
  { intros [Hm Hp]. apply Hne. rewrite Hm, Hp. reflexivity. }
  split.
  { rewrite (router_match_routes o _ _ Hr). rewrite decide_False by exact Hnot.
    reflexivity. }
  exists (respond (method request) (path request)).
  rewrite (handle_respond o request s Hl Hr).
  rewrite (handle_respond o (with_method "GET" request) s Hl Hr).
  simpl fst. split; [reflexivity | ].
  destruct (decide (method request = "HEAD")) as [Hhead | Hhead];
    [destruct (decide (path request = "/")) as [Hp | Hp] | ].
  - rewrite (respond_head_root _ _ Hhead Hp).
    split; [simpl; intros [_ Hb]; discriminate Hb | ].
    split; [intros Hm; contradiction | ].
    split; [intros _ Hx; contradiction | ].
    intros _ _. exists hello. simpl. rewrite Hp.
    split; [reflexivity | ]. split; [reflexivity | ].
    split; [reflexivity | ]. split; [reflexivity | ].
    apply (respond_is_text "HEAD" "/").
  - rewrite (respond_head_other _ _ Hhead Hp).
    split; [simpl; intros [Hs _]; discriminate Hs | ].
    split; [intros Hm; contradiction | ].
    split; [ | intros _ Hx; contradiction].
    intros _ _. exists not_found. repeat split.
  - rewrite (respond_not_found _ _ Hhead Hnot).
    split; [simpl; intros [Hs _]; discriminate Hs | ].
    split; [intros _; split; reflexivity | ].
    split; intros Hm; contradiction.
Qed.

(** A POST / request gets the framework's 404 response, and a HEAD request
    to a path without a route gets it without the body. *)
Lemma C2_other_requests_witness :
  let claim := fun request : Request =>
    (method request, path request) <> ("GET", "/") /\
    router_match app_obj (method request) (path request) = [] /\
    exists r,
      fst (handle request loaded) = Normal r /\
      ~ (status r = 200%Z /\ body r = Some greeting) /\
      (method request <> "HEAD" ->
         fst (handle request loaded) = fst (notFoundHandler (mkContext request) loaded) /\
         status r = 404%Z) /\
      (method request = "HEAD" -> path request <> "/" ->
         exists r404,
           fst (notFoundHandler (mkContext request) loaded) = Normal r404 /\
           r = Response_null r404 /\
           status r = 404%Z /\
           body r = None) /\
      (method request = "HEAD" -> path request = "/" ->
         exists r0,
           fst (handle (with_method "GET" request) loaded) = Normal r0 /\
           r = Response_null r0 /\
           status r = 200%Z /\
           body r = None /\
           is_text r) in
  claim (mkRequest "POST" "/" "" [] None) /\
  claim (mkRequest "HEAD" "/missing" "" [] None).
Proof.
  intros claim.
  assert (Hpost : (method (mkRequest "POST" "/" "" [] None),
                   path (mkRequest "POST" "/" "" [] None)) <> ("GET", "/"))
    by discriminate.
  assert (Hhead : (method (mkRequest "HEAD" "/missing" "" [] None),
                   path (mkRequest "HEAD" "/missing" "" [] None)) <> ("GET", "/"))
    by discriminate.
  split.
  - split; [exact Hpost | ].
    exact (C2_other_requests _ loaded app_obj loaded_app eq_refl Hpost).
  - split; [exact Hhead | ].
    exact (C2_other_requests _ loaded app_obj loaded_app eq_refl Hhead).
Defined.


(** C4: the handler is total on its route.  For every request with method GET
    and path /, in every store that holds the application with its route, the
    call of the registered function completes normally, and so does the whole
    invocation: nothing is thrown, the error handler does not run (nothing is
    written to the console), and the response is the greeting, with status
    200 and a text content type. *)
Theorem C4_total_on_route (request : Request) (s : Store (HonoObj Fn)) (o : HonoObj Fn) :
  method request = "GET" ->
  path request = "/" ->
  heap s !! app = Some o ->
  routes o = routes app_obj ->
  exists r,
    call root_handler (mkContext request) s = (Normal r, s) /\
    fst (handle request s) = Normal r /\
    status r = 200%Z /\
    body r = Some greeting /\
    is_text r /\
    (forall err, fst (handle request s) <> Throw err) /\
    console (snd (handle request s)) = console s.
Proof.
  intros Hm Hp Hl Hr. exists hello.
  rewrite (handle_respond o request s Hl Hr), Hm, Hp.
  split; [reflexivity | ]. split; [reflexivity | ].
  split; [reflexivity | ]. split; [reflexivity | ].
  split; [apply (respond_is_text "GET" "/") | ].
  split; [discriminate | reflexivity].
Qed.

Lemma C4_total_on_route_witness :
  let request := mkRequest "GET" "/" "x=1" [("accept", "*/*")] None in
  exists r,
    call root_handler (mkContext request) loaded = (Normal r, loaded) /\
    fst (handle request loaded) = Normal r /\
    status r = 200%Z /\
    body r = Some greeting /\
    is_text r /\
    (forall err, fst (handle request loaded) <> Throw err) /\
    console (snd (handle request loaded)) = console loaded.
Proof.
  intros request.
  exact (C4_total_on_route request loaded app_obj eq_refl eq_refl loaded_app eq_refl).
Defined.

(** C5: the application object has exactly one route, which binds method GET
    and path / to the handler function.  Loading the module leaves one
    application object on the heap, with that one route; and whatever
    requests are served afterwards, the routes of the object stay the same. *)
Theorem C5_exactly_one_route :
  heap loaded = {[ app := app_obj ]} /\
  routes <$> heap loaded !! app = Some [mkRoute "GET" "/" root_handler] /\
  forall requests : list Request,
  exists rs s',
    serve requests loaded = (Normal rs, s') /\
    routes <$> heap s' !! app = Some [mkRoute "GET" "/" root_handler].
Proof.
  split; [rewrite loaded_eq; reflexivity | ].
  split; [rewrite loaded_app; reflexivity | ].
  intros requests. eexists. eexists. split; [apply serve_loaded | ].
  destruct requests; [rewrite loaded_app | rewrite served_app]; reflexivity.
Qed.




(** C7: loading the entry-point module yields a default export that is the
    application object on which the route was registered: [new Hono()]
    allocates the object at a reference, [get] registers GET / on the object
    at that reference and returns it, that same reference is the value of the
    module, and calling [fetch] on it answers GET / with status 200, a text
    content type and the greeting. *)
Theorem C7_default_export_is_app :
  exists s0 s1,
    new_Hono empty_store = (Normal app, s0) /\
    get app "/" root_handler s0 = (Normal app, s1) /\
    load = (Normal app, s1) /\
    routes <$> heap s1 !! app = Some [mkRoute "GET" "/" root_handler] /\
    forall q hs b,
    exists r,
      fst (fetch call app (mkRequest "GET" "/" q hs b) s1) = Normal r /\
      status r = 200%Z /\
      is_text r /\
      body r = Some greeting.
Proof.
  exists (mkStore {[ app := mkHono [] "/" false ]} []), loaded.
  split; [vm_compute; reflexivity | ].
  split; [vm_compute; reflexivity | ].
  split; [vm_compute; reflexivity | ].
  split; [rewrite loaded_app; reflexivity | ].
  intros q hs b. exists hello.
  rewrite (fetch_respond app app_obj (mkRequest "GET" "/" q hs b) loaded loaded_app eq_refl).
  split; [reflexivity | ]. split; [reflexivity | ].
  split; [apply (respond_is_text "GET" "/") | reflexivity].
Qed.

(** ** The deployment descriptor *)

(** C8: the [main] field of the documented descriptor is "src/index.ts", and
    it is exactly the path, relative to the directory of the descriptor, of
    the module that default-exports the handler: resolved from that directory
    it names the module of [src/index.ts], whose value is the application
    reference; and the only module of the project, seen from that directory
    and written with slashes, is [main]. *)
Theorem C8_main_is_entry_point :
  exists d,
    descriptor_of_json wrangler_json = Some d /\
    main d = "src/index.ts" /\
    resolve (dirname descriptor_path) (main d) = Some (EsModule module_body) /\
    fst (module_body empty_store) = Normal app /\
    modules = [segments (main d)] /\
    Forall (fun p => join <$> relative_to (dirname descriptor_path) p = Some (main d))
           modules.
Proof.
  exists (mkDescriptor "my-worker" "src/index.ts" "2025-12-10").
  split; [reflexivity | ].
  split; [reflexivity | ].
  split; [vm_compute; reflexivity | ].
  split; [vm_compute; reflexivity | ].
  split; [vm_compute; reflexivity | ].
  repeat constructor.
Qed.

(** C9: the JSON form and the TOML form of the descriptor carry the same
    fields with the same values.  Every key is bound alike by the two forms;
    [name], [main] and [compatibility_date] are bound by both; the two forms
    read as the same descriptor; and whatever a deploy tool computes from the
    descriptor, it computes the same from either form. *)
Theorem C9_json_toml_agree :
  (forall key, json_field key wrangler_json = toml_field key wrangler_toml) /\
  Forall (fun key => is_Some (json_field key wrangler_json)) fields /\
  descriptor_of_json wrangler_json = descriptor_of_toml wrangler_toml /\
  descriptor_of_json wrangler_json =
    Some (mkDescriptor "my-worker" "src/index.ts" "2025-12-10") /\
  forall (A : Type) (deploy : Descriptor -> A),
    deploy <$> descriptor_of_json wrangler_json =
    deploy <$> descriptor_of_toml wrangler_toml.
Proof.
  split.
  { intros key. simpl. repeat case_decide; reflexivity. }
  split.
  { repeat constructor; eexists; reflexivity. }
  split; [reflexivity | ].
  split; [reflexivity | ].
  intros A deploy. reflexivity.
Qed.

(** ** Independence from the rest of the request *)

(** C10: the response to GET / does not depend on anything else in the
    request.  Two requests with method GET and path /, whatever their query
    strings, headers and bodies, get the same outcome in every store; and the
    registered function itself returns the same whatever request its context
    carries. *)
Theorem C10_independent_of_rest (r1 r2 : Request) (s : Store (HonoObj Fn)) :
  method r1 = "GET" -> path r1 = "/" ->
  method r2 = "GET" -> path r2 = "/" ->
  handle r1 s = handle r2 s /\
  call root_handler (mkContext r1) s = call root_handler (mkContext r2) s.
Proof.
  intros Hm1 Hp1 Hm2 Hp2. split.
  - unfold handle, fetch. rewrite Hm1, Hm2.
    apply dispatch_same_path. congruence.
  - rewrite (call_ignores_context root_handler (mkContext r1) (mkContext r2)).
    reflexivity.
Qed.

Lemma C10_independent_of_rest_witness :
  let r1 := mkRequest "GET" "/" "" [] None in
  let r2 := mkRequest "GET" "/" "lang=en" [("cookie", "id=42")] (Some "ignored") in
  handle r1 loaded = handle r2 loaded /\
  call root_handler (mkContext r1) loaded = call root_handler (mkContext r2) loaded.
Proof.
  intros r1 r2.
  exact (C10_independent_of_rest r1 r2 loaded eq_refl eq_refl eq_refl eq_refl).
Defined.

(** ** Loading the module anywhere *)

(** The store after [new Hono()] and [app.get('/', ...)], from any store: the
    new object is at the fresh reference, with the one route. *)
Lemma module_body_eq (s : Store (HonoObj Fn)) :
  module_body s =
  (Normal (fresh (dom (heap s))),
   mkStore (<[fresh (dom (heap s)) := app_obj]> (heap s)) (console s)).
Proof.
  unfold module_body, new_Hono, alloc, get, bind, deref, assign, ret. simpl.
  rewrite lookup_insert_eq. simpl.
  rewrite lookup_insert_eq. simpl.
  rewrite lookup_insert_eq. simpl.
  rewrite !insert_insert_eq. reflexivity.
Qed.

Lemma fresh_not_in_heap (s : Store (HonoObj Fn)) :
  heap s !! fresh (dom (heap s)) = None.
Proof. apply not_elem_of_dom, is_fresh. Qed.

(** X1: the module can be loaded in any store, not only in an empty one.
    Loading never throws; the application object is put at a reference that
    the store did not use, with exactly the GET / route; every object that
    was on the heap is still there unchanged, and nothing is written to the
    console. *)
Theorem X1_load_in_any_store (s : Store (HonoObj Fn)) :
  exists l s',
    module_body s = (Normal l, s') /\
    heap s !! l = None /\
    heap s' !! l = Some app_obj /\
    (forall l', l' <> l -> heap s' !! l' = heap s !! l') /\
    console s' = console s.
Proof.
  eexists. eexists. split; [apply module_body_eq | ]. simpl.
  split; [apply fresh_not_in_heap | ].
  split; [apply lookup_insert_eq | ].
  split; [ | reflexivity].
  intros l' Hne. apply lookup_insert_ne. congruence.
Qed.

(** X2: wherever the module is loaded, calling [fetch] on the reference it
    exports with a GET / request completes normally with status 200, a text
    content type and the greeting; and the call changes no object that was in
    the store before the load and writes nothing to the console. *)
Theorem X2_export_serves_after_any_load
  (s : Store (HonoObj Fn)) (q : string) (hs : list (string * string)) (b : option string) :
  exists l s' r,
    module_body s = (Normal l, s') /\
    fst (fetch call l (mkRequest "GET" "/" q hs b) s') = Normal r /\
    status r = 200%Z /\
    is_text r /\
    body r = Some greeting /\
    (forall l', l' <> l ->
       heap (snd (fetch call l (mkRequest "GET" "/" q hs b) s')) !! l' = heap s !! l') /\
    console (snd (fetch call l (mkRequest "GET" "/" q hs b) s')) = console s.
Proof.
  eexists. eexists. exists hello. split; [apply module_body_eq | ].
  rewrite (fetch_respond _ app_obj (mkRequest "GET" "/" q hs b) _
             (lookup_insert_eq _ _ _) eq_refl).
  split; [reflexivity | ]. split; [reflexivity | ].
  split; [apply (respond_is_text "GET" "/") | ].
  split; [reflexivity | ].
  split; [ | reflexivity].
  intros l' Hne. simpl. rewrite !lookup_insert_ne by congruence. reflexivity.
Qed.

(** X3: evaluating the module body again, in a store that already holds the
    loaded application, makes a second application at another reference and
    leaves the first one as it was: the first still answers every request as
    before, and serving it changes nothing but the matcher of the first and
    leaves the second one as loading made it. *)
Theorem X3_second_load_keeps_first (s : Store (HonoObj Fn)) (request : Request) :
  heap s !! app = Some app_obj ->
  exists l s',
    module_body s = (Normal l, s') /\
    l <> app /\
    heap s' !! app = Some app_obj /\
    fst (handle request s') = fst (handle request s) /\
    snd (handle request s') = store_built app app_obj s' /\
    heap (snd (handle request s')) !! l = Some app_obj.
Proof.
  intros Happ.
  assert (Hne : fresh (dom (heap s)) <> app).
  { intros Heq. pose proof (fresh_not_in_heap s) as Hfresh.
    rewrite Heq, Happ in Hfresh. discriminate Hfresh. }
  assert (Happ' : <[fresh (dom (heap s)) := app_obj]> (heap s) !! app = Some app_obj).
  { rewrite lookup_insert_ne by exact Hne. exact Happ. }
  eexists. eexists. split; [apply module_body_eq | ].
  split; [exact Hne | ].
  split; [exact Happ' | ].
  rewrite (handle_respond app_obj request s Happ eq_refl).
  rewrite (handle_respond app_obj request
             (mkStore (<[fresh (dom (heap s)) := app_obj]> (heap s)) (console s))
             Happ' eq_refl).
  split; [reflexivity | ]. split; [reflexivity | ].
  simpl. rewrite lookup_insert_ne by congruence. apply lookup_insert_eq.
Qed.

Lemma X3_second_load_keeps_first_witness :
  let request := mkRequest "GET" "/" "" [] None in
  exists l s',
    module_body loaded = (Normal l, s') /\
    l <> app /\
    heap s' !! app = Some app_obj /\
    fst (handle request s') = fst (handle request loaded) /\
    snd (handle request s') = store_built app app_obj s' /\
    heap (snd (handle request s')) !! l = Some app_obj.
Proof.
  intros request.
  exact (X3_second_load_keeps_first loaded request loaded_app).
Defined.

(** ** What the responses are, over all requests *)

(** X4: the status of a response is 200 exactly when the path is / and the
    method is GET or HEAD; in every other case it is 404.  In particular the
    worker never answers with a 5xx status.  This holds whether the matcher
    of the application is built or not. *)
Theorem X4_status_200_iff (request : Request) (s : Store (HonoObj Fn)) (o : HonoObj Fn) :
  heap s !! app = Some o ->
  routes o = routes app_obj ->
  exists r,
    handle request s = (Normal r, store_built app o s) /\
    (status r = 200%Z <->
       path request = "/" /\ (method request = "GET" \/ method request = "HEAD")) /\
    (status r <> 200%Z -> status r = 404%Z).
Proof.
  intros Hl Hr. exists (respond (method request) (path request)).
  rewrite (handle_respond o request s Hl Hr).
  split; [reflexivity | ].
  destruct (decide (method request = "HEAD")) as [Hhead | Hhead];
    [destruct (decide (path request = "/")) as [Hp | Hp]
    | destruct (decide (method request = "GET" /\ path request = "/")) as [[Hm Hp] | Hne]].
  - rewrite (respond_head_root _ _ Hhead Hp). simpl.
    split; [ | intros Hx; contradiction Hx; reflexivity].
    split; [auto | reflexivity].
  - rewrite (respond_head_other _ _ Hhead Hp). simpl.
    split; [ | reflexivity].
    split; [discriminate | intros [Hx _]; contradiction].
  - rewrite (respond_get_root _ _ Hm Hp). simpl.
    split; [ | intros Hx; contradiction Hx; reflexivity].
    split; [auto | reflexivity].
  - rewrite (respond_not_found _ _ Hhead Hne). simpl.
    split; [ | reflexivity].
    split; [discriminate | ].
    intros [Hp [Hm | Hm]]; [exfalso; apply Hne; auto | contradiction].
Qed.

Lemma X4_status_200_iff_witness :
  let request := mkRequest "PUT" "/" "" [] (Some "x") in
  exists r,
    handle request loaded = (Normal r, store_built app app_obj loaded) /\
    (status r = 200%Z <->
       path request = "/" /\ (method request = "GET" \/ method request = "HEAD")) /\
    (status r <> 200%Z -> status r = 404%Z).
Proof.
  intros request. exact (X4_status_200_iff request loaded app_obj loaded_app eq_refl).
Defined.

(** X5: the greeting is the body of the response to GET / and of no other:
    a response carries "Hello Hono! x gha deploy" if and only if the request
    has method GET and path /. *)
Theorem X5_greeting_only_for_get_root
  (request : Request) (s : Store (HonoObj Fn)) (o : HonoObj Fn) :
  heap s !! app = Some o ->
  routes o = routes app_obj ->
  exists r,
    handle request s = (Normal r, store_built app o s) /\
    (body r = Some greeting <-> method request = "GET" /\ path request = "/").
Proof.
  intros Hl Hr. exists (respond (method request) (path request)).
  rewrite (handle_respond o request s Hl Hr).
  split; [reflexivity | ].
  destruct (decide (method request = "HEAD")) as [Hhead | Hhead];
    [destruct (decide (path request = "/")) as [Hp | Hp]
    | destruct (decide (method request = "GET" /\ path request = "/")) as [[Hm Hp] | Hne]].
  - rewrite (respond_head_root _ _ Hhead Hp). simpl.
    split; [discriminate | intros [Hm _]; rewrite Hhead in Hm; discriminate Hm].
  - rewrite (respond_head_other _ _ Hhead Hp). simpl.
    split; [discriminate | intros [_ Hx]; contradiction].
  - rewrite (respond_get_root _ _ Hm Hp). simpl.
    split; [intros _; auto | reflexivity].
  - rewrite (respond_not_found _ _ Hhead Hne). simpl.
    split; [discriminate | intros Hyes; contradiction].
Qed.

Lemma X5_greeting_only_for_get_root_witness :
  let request := mkRequest "GET" "/hello" "" [] None in
  exists r,
    handle request loaded = (Normal r, store_built app app_obj loaded) /\
    (body r = Some greeting <-> method request = "GET" /\ path request = "/").
Proof.
  intros request.
  exact (X5_greeting_only_for_get_root request loaded app_obj loaded_app eq_refl).
Defined.

(** X6: every response of the worker, the 404 ones and the ones to HEAD
    included, carries exactly one header, a content type, and its media type
    is text/plain. *)
Theorem X6_always_text_plain (request : Request) (s : Store (HonoObj Fn)) (o : HonoObj Fn) :
  heap s !! app = Some o ->
  routes o = routes app_obj ->
  exists r v,
    handle request s = (Normal r, store_built app o s) /\
    headers r = [("content-type", v)] /\
    String.prefix "text/plain" v = true /\
    is_text r.
Proof.
  intros Hl Hr. rewrite (handle_respond o request s Hl Hr).
  destruct (decide (method request = "HEAD")) as [Hhead | Hhead];
    [destruct (decide (path request = "/")) as [Hp | Hp]
    | destruct (decide (method request = "GET" /\ path request = "/")) as [[Hm Hp] | Hne]].
  - exists (respond (method request) (path request)), "text/plain;charset=UTF-8".
    split; [reflexivity | ]. rewrite (respond_head_root _ _ Hhead Hp).
    split; [reflexivity | ]. split; [reflexivity | ].
    apply (respond_is_text "HEAD" "/").
  - exists (respond (method request) (path request)), "text/plain; charset=UTF-8".
    split; [reflexivity | ]. rewrite (respond_head_other _ _ Hhead Hp).
    split; [reflexivity | ]. split; [reflexivity | ].
    apply (respond_is_text "HEAD" "/missing").
  - exists (respond (method request) (path request)), "text/plain;charset=UTF-8".
    split; [reflexivity | ]. rewrite (respond_get_root _ _ Hm Hp).
    split; [reflexivity | ]. split; [reflexivity | ].
    apply (respond_is_text "GET" "/").
  - exists (respond (method request) (path request)), "text/plain; charset=UTF-8".
    split; [reflexivity | ]. rewrite (respond_not_found _ _ Hhead Hne).
    split; [reflexivity | ]. split; [reflexivity | ].
    apply (respond_is_text "POST" "/").
Qed.

Lemma X6_always_text_plain_witness :
  let request := mkRequest "HEAD" "/" "" [] None in
  exists r v,
    handle request loaded = (Normal r, store_built app app_obj loaded) /\
    headers r = [("content-type", v)] /\
    String.prefix "text/plain" v = true /\
    is_text r.
Proof.
  intros request.
  exact (X6_always_text_plain request loaded app_obj loaded_app eq_refl).
Defined.

(** X7: a response has no body exactly when the request is a HEAD request;
    every other request, matched or not, gets a body. *)
Theorem X7_body_null_iff_head (request : Request) (s : Store (HonoObj Fn)) (o : HonoObj Fn) :
  heap s !! app = Some o ->
  routes o = routes app_obj ->
  exists r,
    handle request s = (Normal r, store_built app o s) /\
    (body r = None <-> method request = "HEAD").
Proof.
  intros Hl Hr. exists (respond (method request) (path request)).
  rewrite (handle_respond o request s Hl Hr).
  split; [reflexivity | ].
  destruct (decide (method request = "HEAD")) as [Hhead | Hhead];
    [destruct (decide (path request = "/")) as [Hp | Hp]
    | destruct (decide (method request = "GET" /\ path request = "/")) as [[Hm Hp] | Hne]].
  - rewrite (respond_head_root _ _ Hhead Hp). simpl. split; auto.
  - rewrite (respond_head_other _ _ Hhead Hp). simpl. split; auto.
  - rewrite (respond_get_root _ _ Hm Hp). simpl.
    split; [discriminate | intros Hx; contradiction].
  - rewrite (respond_not_found _ _ Hhead Hne). simpl.
    split; [discriminate | intros Hx; contradiction].
Qed.

Lemma X7_body_null_iff_head_witness :
  let request := mkRequest "HEAD" "/" "" [] None in
  exists r,
    handle request loaded = (Normal r, store_built app app_obj loaded) /\
    (body r = None <-> method request = "HEAD").
Proof.
  intros request.
  exact (X7_body_null_iff_head request loaded app_obj loaded_app eq_refl).
Defined.

(** X8: the outcome of an invocation depends on the request through its
    method and path only, for every route and in every store: two requests
    with the same method and the same path complete alike and leave the same
    store, whatever their query strings, headers and bodies, whatever
    application object the exported reference holds, and also when it holds
    none. *)
Theorem X8_same_method_path_same_outcome (r1 r2 : Request) (s : Store (HonoObj Fn)) :
  method r1 = method r2 ->
  path r1 = path r2 ->
  handle r1 s = handle r2 s.
Proof.
  intros Hm Hp. unfold handle, fetch. rewrite Hm.
  apply dispatch_same_path, Hp.
Qed.

Lemma X8_same_method_path_same_outcome_witness :
  let r1 := mkRequest "POST" "/submit" "a=1" [("content-type", "text/plain")] (Some "one") in
  let r2 := mkRequest "POST" "/submit" "b=2" [] None in
  handle r1 loaded = handle r2 loaded.
Proof.
  intros r1 r2.
  exact (X8_same_method_path_same_outcome r1 r2 loaded eq_refl eq_refl).
Defined.
